(** * ember-a11y-testing: [addon-test-support/audit.ts]

    A shallow embedding of the audit helper: the shape test [_isContext],
    the parameter normaliser [_normalizeRunParams], the result translator
    [processAxeResults] and the entry point [a11yAudit].

    JavaScript values are an inductive type, the host (globals, the
    document body, the performance timeline, the run-options registry)
    is an explicit [World], and every function of the source is a
    computation in a state-and-exception monad over that world. *)

From Stdlib Require Import String Ascii List Bool ZArith Lia.
Import ListNotations.
Local Open Scope string_scope.
Local Open Scope list_scope.
#[local] Set Warnings "-register-all".

(** ** JavaScript values *)

Module JS.

(** The values the audit helper can be handed.  Numbers are kept to the
    integers and [VNaN]; that is all truthiness needs.  [VNode] and
    [VNodeList] are host objects created by the DOM, identified by a
    handle.  [VObject] is a plain object given by its own data
    properties, the first binding of a key being the live one.  [VError]
    is an object made by an error constructor ([name], [message]). *)
Inductive value : Type :=
| VUndefined
| VNull
| VBoolean (b : bool)
| VNumber (n : Z)
| VNaN
| VString (s : string)
| VSymbol (description : string)
| VFunction (name : string)
| VArray (elems : list value)
| VNode (handle : nat)
| VNodeList (handles : list nat)
| VObject (props : list (string * value))
| VError (name message : string).

(** [typeof v] *)
Definition typeof (v : value) : string :=
  match v with
  | VUndefined => "undefined"
  | VNull => "object"
  | VBoolean _ => "boolean"
  | VNumber _ | VNaN => "number"
  | VString _ => "string"
  | VSymbol _ => "symbol"
  | VFunction _ => "function"
  | VArray _ | VNode _ | VNodeList _ | VObject _ | VError _ _ => "object"
  end.

(** [Array.isArray(v)] *)
Definition Array_isArray (v : value) : bool :=
  match v with VArray _ => true | _ => false end.

(** [v instanceof Node], for a host that has the [Node] constructor. *)
Definition instanceof_Node (v : value) : bool :=
  match v with VNode _ => true | _ => false end.

(** [v instanceof NodeList], likewise. *)
Definition instanceof_NodeList (v : value) : bool :=
  match v with VNodeList _ => true | _ => false end.

(** [v === undefined] *)
Definition is_undefined (v : value) : bool :=
  match v with VUndefined => true | _ => false end.

(** Truthiness, as [!v], [a || b] and [if (v)] use it. *)
Definition ToBoolean (v : value) : bool :=
  match v with
  | VUndefined | VNull | VNaN => false
  | VBoolean b => b
  | VNumber n => negb (Z.eqb n 0)
  | VString s => negb (String.eqb s "")
  | _ => true
  end.

Fixpoint lookupProp (key : string) (props : list (string * value)) : value :=
  match props with
  | [] => VUndefined
  | (k, v) :: rest => if String.eqb key k then v else lookupProp key rest
  end.

(** The outcome of evaluating an expression or a call: a value, or a
    thrown value. *)
Inductive Completion (A : Type) : Type :=
| Normal (a : A)
| Throw (thrown : value).
Arguments Normal {A} a.
Arguments Throw {A} thrown.

Definition propertyTypeError (v : value) (key : string) : value :=
  VError "TypeError"
    ("Cannot read properties of " ++
     (if is_undefined v then "undefined" else "null") ++
     " (reading '" ++ key ++ "')").

(** [v.key].  Reading a property of [undefined] or [null] throws a
    TypeError; a plain object answers with its own property or
    [undefined]; an error object has [name] and [message]; the other
    values have none of the keys the audit helper reads. *)
Definition getProp (v : value) (key : string) : Completion value :=
  match v with
  | VUndefined | VNull => Throw (propertyTypeError v key)
  | VObject props => Normal (lookupProp key props)
  | VError name message =>
      Normal (if String.eqb key "name" then VString name
              else if String.eqb key "message" then VString message
              else VUndefined)
  | _ => Normal VUndefined
  end.

End JS.
Export JS.

(** ** The host *)

(** What the audit does to the outside, in the order it does it. *)
Inductive Event : Type :=
| EvMark (name : string)
| EvMeasure (name startMark endMark : string)
| EvClassAdd (token : string)
| EvClassRemove (token : string)
| EvRun (context options : value).

(** [RunOptions]: the own properties of the options object. *)
Definition RunOptions : Type := list (string * value).

(** The host is one that binds the global [self], a window or a worker;
    [Node] and [NodeList] may or may not be defined on it. *)
Record World : Type := mkWorld {
  selfNode : bool;                  (* [self.Node] is defined *)
  selfNodeList : bool;              (* [self.NodeList] is defined *)
  bodyClassList : list string;      (* [document.body.classList] *)
  runOptionsRegistry : option RunOptions;
                                    (* what [setRunOptions] registered *)
  currentTestId : string;           (* [QUnit.config.current.testId] *)
  trace : list Event                (* effects so far, oldest first *)
}.

(** State and exceptions over the world. *)
Definition M (A : Type) : Type := World -> Completion A * World.

Definition ret {A} (a : A) : M A := fun w => (Normal a, w).

Definition throw {A} (e : value) : M A := fun w => (Throw e, w).

Definition bind {A B} (c : M A) (k : A -> M B) : M B :=
  fun w =>
    match c w with
    | (Normal a, w') => k a w'
    | (Throw e, w') => (Throw e, w')
    end.

Definition liftC {A} (c : Completion A) : M A := fun w => (c, w).

Definition getWorld : M World := fun w => (Normal w, w).

Definition modifyWorld (f : World -> World) : M unit :=
  fun w => (Normal tt, f w).

Declare Scope js_scope.
Delimit Scope js_scope with js.
Notation "x <- c ;; k" := (bind c (fun x => k))
  (at level 61, c at next level, right associativity) : js_scope.
Notation "c ;;; k" := (bind c (fun _ => k))
  (at level 61, right associativity) : js_scope.
Local Open Scope js_scope.

(** ** The parameter normaliser *)

(** [_isContext], audit.ts lines 48-67.  [switch (true)] takes the first
    case whose expression is strictly equal to [true], evaluating the
    case expressions in order; [self.Node && potential instanceof
    self.Node] is [undefined] where the host has no [Node]. *)
Definition _isContext (potential : value) : M bool :=
  w <- getWorld ;;
  if String.eqb (typeof potential) "string" then ret true
  else if Array_isArray potential then ret true
  else if selfNode w && instanceof_Node potential then ret true
  else if selfNodeList w && instanceof_NodeList potential then ret true
  else if negb (String.eqb (typeof potential) "object") then ret false
  else
    include <- liftC (getProp potential "include") ;;
    if negb (is_undefined include) then ret true
    else
      exclude <- liftC (getProp potential "exclude") ;;
      if negb (is_undefined exclude) then ret true
      else ret false.

(** Modelled from the spec: [getRunOptions] of [./run-options], which is
    not part of the sources at hand: "a process-wide read of previously
    configured defaults", a [RunOptions] or [undefined]. *)
Definition getRunOptions : M value :=
  w <- getWorld ;;
  ret (match runOptionsRegistry w with
       | Some props => VObject props
       | None => VUndefined
       end).

Definition defaultSelector : value := VString "#ember-testing-container".

(** Lines 84-90 of [_normalizeRunParams]: which argument is the context
    and which the options. *)
Definition resolveRunParams (elementContext runOptions : value)
  : M (value * value) :=
  isContext <- _isContext elementContext ;;
  if negb isContext then ret (defaultSelector, elementContext)
  else ret (elementContext, runOptions).

(** Lines 92-94 of [_normalizeRunParams]: the fallback for options. *)
Definition defaultRunOptions (options : value) : M value :=
  if negb (String.eqb (typeof options) "object") then
    registered <- getRunOptions ;;
    ret (if ToBoolean registered then registered else VObject [])
  else ret options.

(** [_normalizeRunParams], audit.ts lines 77-97. *)
Definition _normalizeRunParams (elementContext runOptions : value)
  : M (value * value) :=
  resolved <- resolveRunParams elementContext runOptions ;;
  options <- defaultRunOptions (snd resolved) ;;
  ret (fst resolved, options).

(** ** Audit results *)

(** The parts of axe-core's [NodeResult], [Result] and [AxeResults]
    that the translator reads or hands to the formatter. *)
Record NodeResult : Type := mkNodeResult {
  html : string;
  target : list string
}.

Record Result : Type := mkResult {
  id : string;
  impact : option string;
  help : string;
  helpUrl : string;
  nodes : list NodeResult
}.

Record AxeResults : Type := mkAxeResults {
  violations : list Result
}.

(** What the engine passes to its callback: [(error, result)]. *)
Record CallbackArgs : Type := mkCallbackArgs {
  cbError : value;
  cbResult : AxeResults
}.

(** The settled state of a promise. *)
Inductive Promise (A : Type) : Type :=
| Fulfilled (a : A)
| Rejected (reason : value).
Arguments Fulfilled {A} a.
Arguments Rejected {A} reason.

(** [p.then(onFulfilled)]: a rejection passes through untouched; a
    throw inside the callback rejects the new promise. *)
Definition then_ {A B} (p : Promise A) (onFulfilled : A -> M B)
  : M (Promise B) :=
  match p with
  | Fulfilled a =>
      fun w =>
        match onFulfilled a w with
        | (Normal b, w') => (Normal (Fulfilled b), w')
        | (Throw e, w') => (Normal (Rejected e), w')
        end
  | Rejected reason => ret (Rejected reason)
  end.

(** [p.finally(onFinally)]: the callback runs on either state and the
    state of [p] is kept, unless the callback itself throws. *)
Definition finally_ {A} (p : Promise A) (onFinally : M unit)
  : M (Promise A) :=
  fun w =>
    match onFinally w with
    | (Normal _, w') => (Normal p, w')
    | (Throw e, w') => (Normal (Rejected e), w')
    end.

(** ** Effects on the host *)

Definition hasToken (token : string) (classes : list string) : bool :=
  existsb (String.eqb token) classes.

(** [DOMTokenList.add]: a token is added once. *)
Definition addToken (token : string) (classes : list string) : list string :=
  if hasToken token classes then classes else classes ++ [token].

(** [DOMTokenList.remove] *)
Definition removeToken (token : string) (classes : list string)
  : list string :=
  filter (fun c => negb (String.eqb token c)) classes.

Definition withBodyClassList (f : list string -> list string) (w : World)
  : World :=
  mkWorld (selfNode w) (selfNodeList w) (f (bodyClassList w))
          (runOptionsRegistry w) (currentTestId w) (trace w).

Definition logEvent (ev : Event) (w : World) : World :=
  mkWorld (selfNode w) (selfNodeList w) (bodyClassList w)
          (runOptionsRegistry w) (currentTestId w) (trace w ++ [ev]).

(** [document.body.classList.add(token)] *)
Definition classList_add (token : string) : M unit :=
  modifyWorld (fun w => logEvent (EvClassAdd token)
                          (withBodyClassList (addToken token) w)).

(** [document.body.classList.remove(token)] *)
Definition classList_remove (token : string) : M unit :=
  modifyWorld (fun w => logEvent (EvClassRemove token)
                          (withBodyClassList (removeToken token) w)).

(** Modelled from the spec: [mark] of [./performance], which is not part
    of the sources at hand: "records a named instant", never failing. *)
Definition mark (name : string) : M unit :=
  modifyWorld (logEvent (EvMark name)).

(** Modelled from the spec: [markEndAndMeasure] of [./performance],
    likewise absent: it records the end marker, then "computes and
    records the duration" between the two markers, never failing. *)
Definition markEndAndMeasure (name startMark endMark : string) : M unit :=
  modifyWorld (logEvent (EvMark endMark)) ;;;
  modifyWorld (logEvent (EvMeasure name startMark endMark)).

(** ** Reading a trace *)

(** Every engine call in [evs] happens while [token] is on the body,
    the body starting out with [classes]. *)
Fixpoint tokenHeldAtRuns (token : string) (classes : list string)
  (evs : list Event) : bool :=
  match evs with
  | [] => true
  | EvClassAdd t :: rest => tokenHeldAtRuns token (addToken t classes) rest
  | EvClassRemove t :: rest =>
      tokenHeldAtRuns token (removeToken t classes) rest
  | EvRun _ _ :: rest =>
      hasToken token classes && tokenHeldAtRuns token classes rest
  | _ :: rest => tokenHeldAtRuns token classes rest
  end.

(** The [(context, options)] pairs the engine was called with. *)
Fixpoint engineCalls (evs : list Event) : list (value * value) :=
  match evs with
  | [] => []
  | EvRun context options :: rest => (context, options) :: engineCalls rest
  | _ :: rest => engineCalls rest
  end.

(** An object, as opposed to a primitive: [typeof] says "object" of
    [null] too, which is none. *)
Definition isObject (v : value) : bool :=
  match v with
  | VNull => false
  | _ => String.eqb (typeof v) "object"
  end.

(** What lines 92-94 make of the options they are given in [w]. *)
Definition optionsOrRegistered (w : World) (options : value) : value :=
  if String.eqb (typeof options) "object" then options
  else match runOptionsRegistry w with
       | Some registered => VObject registered
       | None => VObject []
       end.

(** A plain mapping: an object that is neither [null], an array, a DOM
    object nor an error. *)
Definition isPlainMapping (v : value) : bool :=
  match v with VObject _ => true | _ => false end.

(** The five shapes of a context descriptor. *)
Definition isString (v : value) : bool :=
  match v with VString _ => true | _ => false end.

Definition hasDefinedKey (key : string) (v : value) : bool :=
  match v with
  | VObject props => negb (is_undefined (lookupProp key props))
  | _ => false
  end.

Definition contextShaped (v : value) : bool :=
  isString v || Array_isArray v || instanceof_Node v
  || instanceof_NodeList v
  || hasDefinedKey "include" v || hasDefinedKey "exclude" v.

(** DOM objects come from the host: a node, or a node-list, is only met
    in a host that defines [Node], or [NodeList]. *)
Definition hostProvides (w : World) (v : value) : Prop :=
  (instanceof_Node v = true -> selfNode w = true)
  /\ (instanceof_NodeList v = true -> selfNodeList w = true).

(** [needle] occurs in [s]. *)
Definition embeds (needle s : string) : Prop :=
  exists before after, s = (before ++ needle ++ after)%string.

Definition newline : string := String (ascii_of_nat 10) EmptyString.

Section Audit.

(** [run] of axe-core, reduced to what it reports to its callback, and
    [formatViolation] of [./format-violation]: both lie outside the
    sources at hand and are left open. *)
Variable engine : World -> value -> value -> CallbackArgs.
Variable formatViolation : Result -> list string -> string.

(** ** The result translator *)

(** [processAxeResults], audit.ts lines 22-38. *)
Definition processAxeResults (results : AxeResults) : M unit :=
  let violations := violations results in
  if negb (Nat.eqb (length violations) 0) then
    let allViolations :=
      map (fun violation =>
             let violationNodes := map html (nodes violation) in
             formatViolation violation violationNodes)
          violations in
    let allViolationMessages := String.concat newline allViolations in
    w <- getWorld ;;
    throw (VError "Error"
      ("The page should have no accessibility violations. Violations:"
       ++ newline ++ allViolationMessages ++ newline ++
       "To rerun this specific failure, use the following query params: &"
       ++ currentTestId w ++ "&enableA11yAudit=true"))
  else ret tt.

(** ** The entry point *)

(** [run(context, options, callback)]: the engine is called and answers
    through its callback, once. *)
Definition run (context options : value) : M CallbackArgs :=
  w <- getWorld ;;
  modifyWorld (logEvent (EvRun context options)) ;;;
  ret (engine w context options).

(** [new Promise((resolve, reject) => run(context, options, ...))],
    audit.ts lines 117-125. *)
Definition runPromise (context options : value) : M (Promise AxeResults) :=
  answer <- run context options ;;
  if negb (ToBoolean (cbError answer)) then ret (Fulfilled (cbResult answer))
  else ret (Rejected (cbError answer)).

(** The body of [a11yAudit], audit.ts lines 107-131, with the callback
    given to [.then] left open.  A missing first argument takes the
    parameter's default. *)
Definition auditWith (translate : AxeResults -> M unit)
  (contextSelector axeOptions : value) : M (Promise unit) :=
  let contextSelector :=
    if is_undefined contextSelector then defaultSelector
    else contextSelector in
  mark "a11y_audit_start" ;;;
  normalized <- _normalizeRunParams contextSelector axeOptions ;;
  classList_add "axe-running" ;;;
  p <- runPromise (fst normalized) (snd normalized) ;;
  p <- then_ p translate ;;
  finally_ p
    (classList_remove "axe-running" ;;;
     markEndAndMeasure "a11y_audit" "a11y_audit_start" "a11y_audit_end").

(** [a11yAudit] *)
Definition a11yAudit (contextSelector axeOptions : value)
  : M (Promise unit) :=
  auditWith processAxeResults contextSelector axeOptions.

(** The world in which [a11yAudit] calls the engine. *)
Definition worldAtRun (w : World) : World :=
  logEvent (EvClassAdd "axe-running")
    (withBodyClassList (addToken "axe-running")
       (logEvent (EvMark "a11y_audit_start") w)).

(** The world once the callback given to [.finally] has run in [w]. *)
Definition worldAfterCleanup (w : World) : World :=
  logEvent (EvMeasure "a11y_audit" "a11y_audit_start" "a11y_audit_end")
    (logEvent (EvMark "a11y_audit_end")
       (logEvent (EvClassRemove "axe-running")
          (withBodyClassList (removeToken "axe-running") w))).

(** The first parameter of [a11yAudit] after its default is applied. *)
Definition contextSelectorOrDefault (contextSelector : value) : value :=
  if is_undefined contextSelector then defaultSelector else contextSelector.

End Audit.

(** ** Sample inputs *)

Definition sampleWorld : World :=
  mkWorld true true ["ember-application"] None "a1b2c3d4" [].

Definition registeredWorld : World :=
  mkWorld true true ["ember-application"]
          (Some [("runOnly", VArray [VString "wcag2a"])]) "a1b2c3d4" [].

Definition imageAlt : Result :=
  mkResult "image-alt" (Some "critical")
    "Images must have alternate text"
    "https://dequeuniversity.com/rules/axe/4.4/image-alt"
    [mkNodeResult "<img src=logo.png>" ["img:nth-child(1)"];
     mkNodeResult "<img src=hero.png>" ["img:nth-child(2)"]].

Definition label : Result :=
  mkResult "label" (Some "serious")
    "Form elements must have labels"
    "https://dequeuniversity.com/rules/axe/4.4/label"
    [mkNodeResult "<input type=text>" ["input"]].

Definition engineFailure : value :=
  VError "Error" "No elements found for include in page Context".

(** An engine that fails on the selector [#missing], finds two
    violations under [#form] and nothing elsewhere. *)
Definition sampleEngine (w : World) (context options : value)
  : CallbackArgs :=
  match context with
  | VString s =>
      if String.eqb s "#missing" then
        mkCallbackArgs engineFailure (mkAxeResults [])
      else if String.eqb s "#form" then
        mkCallbackArgs VNull (mkAxeResults [imageAlt; label])
      else mkCallbackArgs VNull (mkAxeResults [])
  | _ => mkCallbackArgs VNull (mkAxeResults [])
  end.

Definition sampleFormat (violation : Result) (markup : list string)
  : string :=
  (id violation ++ ": " ++ String.concat ", " markup)%string.

Definition rulesOff : value :=
  VObject [("rules",
            VObject [("color-contrast",
                      VObject [("enabled", VBoolean false)])])].

Definition includeFoo : value :=
  VObject [("include", VArray [VString ".foo"])].

(** A worker, where [self] is bound but there is no DOM, and a window
    where an earlier audit has left its class on the body. *)
Definition workerWorld : World :=
  mkWorld false false [] (Some [("runOnly", VArray [VString "wcag2a"])])
          "a1b2c3d4" [].

(** An engine that refuses to run unless the body carries
    [axe-running], and otherwise answers as [sampleEngine]. *)
Definition strictEngine (w : World) (context options : value)
  : CallbackArgs :=
  if hasToken "axe-running" (bodyClassList w)
  then sampleEngine w context options
  else mkCallbackArgs (VString "axe-running is not set") (mkAxeResults []).

Definition overlappingWorld : World :=
  mkWorld true true ["axe-running"; "ember-application"] None "f00dfeed"
          [EvMark "a11y_audit_start"; EvClassAdd "axe-running"].

(** * Properties *)

(** ** Tokens and traces *)

Lemma hasToken_app token xs ys :
  hasToken token (xs ++ ys) = hasToken token xs || hasToken token ys.
Proof. unfold hasToken. apply existsb_app. Qed.

Lemma hasToken_addToken token classes :
  hasToken token (addToken token classes) = true.
Proof.
  unfold addToken. destruct (hasToken token classes) eqn:Held.
  - exact Held.
  - rewrite hasToken_app, Held. cbn. now rewrite String.eqb_refl.
Qed.

Lemma hasToken_removeToken token classes :
  hasToken token (removeToken token classes) = false.
Proof.
  unfold hasToken, removeToken.
  induction classes as [|c rest IH]; cbn; [reflexivity|].
  destruct (String.eqb token c) eqn:Same; cbn; [exact IH|].
  now rewrite Same.
Qed.

Lemma engineCalls_app xs ys :
  engineCalls (xs ++ ys) = engineCalls xs ++ engineCalls ys.
Proof.
  induction xs as [|ev rest IH]; cbn; [reflexivity|].
  destruct ev; cbn; now rewrite IH.
Qed.

(** ** The shape test *)

(** What [_isContext] answers in any host, on anything but [null]. *)
Lemma isContext_spec potential w :
  potential <> VNull ->
  _isContext potential w =
  (Normal (isString potential || Array_isArray potential
           || (selfNode w && instanceof_Node potential)
           || (selfNodeList w && instanceof_NodeList potential)
           || hasDefinedKey "include" potential
           || hasDefinedKey "exclude" potential), w).
Proof.
  intros NotNull.
  destruct potential; try congruence;
    unfold _isContext, bind, getWorld, ret, liftC; cbn;
    destruct (selfNode w), (selfNodeList w); cbn; try reflexivity;
    destruct (is_undefined (lookupProp "include" props)); cbn;
    try reflexivity;
    destruct (is_undefined (lookupProp "exclude" props)); reflexivity.
Qed.

Lemma isContext_null w :
  _isContext VNull w = (Throw (propertyTypeError VNull "include"), w).
Proof.
  unfold _isContext, bind, getWorld, ret, liftC; cbn.
  destruct (selfNode w), (selfNodeList w); reflexivity.
Qed.

Lemma isContext_world potential w : snd (_isContext potential w) = w.
Proof.
  destruct potential;
    try (rewrite isContext_spec by congruence; reflexivity).
  now rewrite isContext_null.
Qed.

Lemma isContext_string s w : _isContext (VString s) w = (Normal true, w).
Proof. now rewrite isContext_spec by congruence. Qed.

(** The answer does not depend on the body's classes or on the trace. *)
Lemma isContext_same_host potential w w' :
  selfNode w' = selfNode w -> selfNodeList w' = selfNodeList w ->
  fst (_isContext potential w') = fst (_isContext potential w).
Proof.
  intros SameNode SameList.
  destruct potential;
    try (rewrite !isContext_spec by congruence; cbn;
         now rewrite ?SameNode, ?SameList).
  now rewrite !isContext_null.
Qed.

(** ** The normaliser, step by step *)

Lemma resolveRunParams_unfold elementContext runOptions w :
  resolveRunParams elementContext runOptions w =
  match fst (_isContext elementContext w) with
  | Normal true => (Normal (elementContext, runOptions), w)
  | Normal false => (Normal (defaultSelector, elementContext), w)
  | Throw e => (Throw e, w)
  end.
Proof.
  unfold resolveRunParams, bind.
  pose proof (isContext_world elementContext w) as Same.
  destruct (_isContext elementContext w) as [[[|]|e] w1];
    cbn in Same |- *; now subst.
Qed.

Lemma defaultRunOptions_unfold options w :
  defaultRunOptions options w =
  (Normal (if String.eqb (typeof options) "object" then options
           else match runOptionsRegistry w with
                | Some props => VObject props
                | None => VObject []
                end), w).
Proof.
  unfold defaultRunOptions, getRunOptions, bind, getWorld, ret.
  destruct (String.eqb (typeof options) "object"); cbn; [reflexivity|].
  destruct (runOptionsRegistry w); reflexivity.
Qed.

Lemma defaultRunOptions_typeof options w :
  typeof (match fst (defaultRunOptions options w) with
          | Normal o => o
          | Throw e => e
          end) = "object".
Proof.
  rewrite defaultRunOptions_unfold; cbn.
  destruct (String.eqb (typeof options) "object") eqn:IsObject.
  - now apply String.eqb_eq.
  - destruct (runOptionsRegistry w); reflexivity.
Qed.

Lemma normalizeRunParams_unfold elementContext runOptions w :
  _normalizeRunParams elementContext runOptions w =
  match resolveRunParams elementContext runOptions w with
  | (Normal resolved, w1) =>
      (Normal (fst resolved,
               match fst (defaultRunOptions (snd resolved) w1) with
               | Normal o => o
               | Throw e => e
               end), w1)
  | (Throw e, w1) => (Throw e, w1)
  end.
Proof.
  unfold _normalizeRunParams, bind, ret.
  destruct (resolveRunParams elementContext runOptions w)
    as [[resolved|e] w1]; [|reflexivity].
  now rewrite defaultRunOptions_unfold.
Qed.

Lemma normalizeRunParams_same_host elementContext runOptions w w2 :
  selfNode w2 = selfNode w -> selfNodeList w2 = selfNodeList w ->
  runOptionsRegistry w2 = runOptionsRegistry w ->
  fst (_normalizeRunParams elementContext runOptions w2)
  = fst (_normalizeRunParams elementContext runOptions w).
Proof.
  intros SameNode SameList SameRegistry.
  rewrite !normalizeRunParams_unfold, !resolveRunParams_unfold.
  rewrite (isContext_same_host elementContext w w2) by assumption.
  destruct (fst (_isContext elementContext w)) as [[|]|e]; cbn;
    rewrite ?defaultRunOptions_unfold; cbn; now rewrite ?SameRegistry.
Qed.

(** On anything but [null] the normaliser returns, leaving the world as
    it was. *)
Lemma normalizeRunParams_returns elementContext runOptions w :
  elementContext <> VNull ->
  exists context options,
    _normalizeRunParams elementContext runOptions w
    = (Normal (context, options), w).
Proof.
  intros NotNull.
  rewrite normalizeRunParams_unfold, resolveRunParams_unfold.
  rewrite isContext_spec by assumption; cbn.
  match goal with |- context [if ?c then _ else _] => destruct c end;
    eexists; eexists; reflexivity.
Qed.

Lemma normalizeRunParams_world elementContext runOptions w :
  snd (_normalizeRunParams elementContext runOptions w) = w.
Proof.
  rewrite normalizeRunParams_unfold, resolveRunParams_unfold.
  destruct (fst (_isContext elementContext w)) as [[|]|e]; reflexivity.
Qed.

(** What the normaliser returns is context-shaped on the left and of
    type "object" on the right. *)
Lemma normalizeRunParams_shape elementContext runOptions w context options w' :
  _normalizeRunParams elementContext runOptions w
  = (Normal (context, options), w') ->
  w' = w /\ fst (_isContext context w) = Normal true
  /\ typeof options = "object"
  /\ (options = elementContext \/ options = runOptions
      \/ isPlainMapping options = true).
Proof.
  rewrite normalizeRunParams_unfold, resolveRunParams_unfold.
  destruct (fst (_isContext elementContext w)) as [[|]|e] eqn:Shape;
    cbn; intros [= <- <- <-].
  - split; [reflexivity|].
    split; [assumption|].
    split.
    + apply (defaultRunOptions_typeof runOptions w).
    + rewrite defaultRunOptions_unfold; cbn.
      destruct (String.eqb (typeof runOptions) "object"); [now auto|].
      destruct (runOptionsRegistry w); now auto.
  - split; [reflexivity|].
    split; [apply (f_equal fst (isContext_string "#ember-testing-container" w))|].
    split.
    + apply (defaultRunOptions_typeof elementContext w).
    + rewrite defaultRunOptions_unfold; cbn.
      destruct (String.eqb (typeof elementContext) "object"); [now auto|].
      destruct (runOptionsRegistry w); now auto.
Qed.

(** ** Claims about the normaliser *)

(** C1, as amended.  [_isContext] classifies every first argument other
    than [null]: it answers [true] exactly when the argument is a string,
    an array, a DOM node, a DOM node-list, or an object whose [include]
    or [exclude] key is defined, and [false] on every other value,
    [undefined] and plain objects without those keys among them.  (A DOM
    node or node-list is an instance of the host's own [Node] or
    [NodeList].) *)
Theorem isContext_classifies potential w :
  hostProvides w potential -> potential <> VNull ->
  _isContext potential w = (Normal (contextShaped potential), w).
Proof.
  intros [FromNode FromNodeList] NotNull.
  rewrite isContext_spec by assumption. unfold contextShaped.
  destruct (instanceof_Node potential);
    [rewrite FromNode by reflexivity | rewrite andb_false_r];
    (destruct (instanceof_NodeList potential);
     [rewrite FromNodeList by reflexivity | rewrite andb_false_r]);
    reflexivity.
Qed.

Lemma isContext_classifies_witness :
  hostProvides sampleWorld includeFoo /\ includeFoo <> VNull
  /\ _isContext includeFoo sampleWorld = (Normal true, sampleWorld)
  /\ _isContext rulesOff sampleWorld = (Normal false, sampleWorld)
  /\ _isContext (VNode 4) sampleWorld = (Normal true, sampleWorld).
Proof.
  split; [split; reflexivity|]. split; [discriminate|]. split; [|split].
  - apply (isContext_classifies includeFoo sampleWorld);
      [split; reflexivity | discriminate].
  - apply (isContext_classifies rulesOff sampleWorld);
      [split; reflexivity | discriminate].
  - apply (isContext_classifies (VNode 4) sampleWorld);
      [split; reflexivity | discriminate].
Defined.

(** C1, as stated, fails on [null]: [null] is none of the five shapes,
    yet it is not classified as options; reading [null.include] throws. *)
Lemma isContext_null_throws :
  contextShaped VNull = false
  /\ _isContext VNull sampleWorld
     = (Throw (VError "TypeError"
                 "Cannot read properties of null (reading 'include')"),
        sampleWorld)
  /\ fst (_isContext VNull sampleWorld) <> Normal false.
Proof.
  split; [reflexivity|]. split; [reflexivity|]. discriminate.
Qed.

(** C2, as amended.  For every pair of arguments whose first is not
    [null]: when the first argument is classified as a context,
    [_normalizeRunParams] takes it as the context and the second argument
    as the options; when it is classified as options, the context is the
    selector [#ember-testing-container] and the first argument is the
    options.  The context is returned as taken; the options are returned
    as taken only when their type is "object", and are otherwise replaced
    by the registered options, or [{}]. *)
Theorem normalize_picks_context elementContext runOptions w :
  elementContext <> VNull ->
  exists isContext,
    _isContext elementContext w = (Normal isContext, w)
    /\ resolveRunParams elementContext runOptions w
       = (Normal (if isContext then (elementContext, runOptions)
                  else (VString "#ember-testing-container",
                        elementContext)), w)
    /\ _normalizeRunParams elementContext runOptions w
       = (Normal (if isContext
                  then (elementContext, optionsOrRegistered w runOptions)
                  else (VString "#ember-testing-container",
                        optionsOrRegistered w elementContext)), w).
Proof.
  intros NotNull.
  rewrite normalizeRunParams_unfold, resolveRunParams_unfold.
  rewrite isContext_spec by assumption. cbn [fst].
  eexists. split; [reflexivity|].
  match goal with |- context [if ?c then _ else _] => destruct c end;
    (split; [reflexivity|]); cbn [fst snd];
    rewrite defaultRunOptions_unfold; reflexivity.
Qed.

Lemma normalize_picks_context_witness :
  VString ".sidebar" <> VNull
  /\ rulesOff <> VNull
  /\ _normalizeRunParams (VString ".sidebar") rulesOff registeredWorld
     = (Normal (VString ".sidebar", rulesOff), registeredWorld)
  /\ _normalizeRunParams rulesOff includeFoo registeredWorld
     = (Normal (VString "#ember-testing-container", rulesOff),
        registeredWorld).
Proof.
  split; [discriminate|]. split; [discriminate|]. split.
  - destruct (normalize_picks_context (VString ".sidebar") rulesOff
                registeredWorld ltac:(discriminate))
      as (isContext & Shape & _ & Returned).
    injection Shape as <-. exact Returned.
  - destruct (normalize_picks_context rulesOff includeFoo
                registeredWorld ltac:(discriminate))
      as (isContext & Shape & _ & Returned).
    injection Shape as <-. exact Returned.
Defined.

(** C2, as stated, fails in two places.  A second argument that is not
    of type "object" is not returned as the options: the registered
    ones, or [{}], are.  And a [null] first argument gives no pair at
    all: the classification throws. *)
Lemma normalize_replaces_second :
  fst (_isContext (VString ".sidebar") sampleWorld) = Normal true
  /\ _normalizeRunParams (VString ".sidebar") (VNumber 5) sampleWorld
     = (Normal (VString ".sidebar", VObject []), sampleWorld)
  /\ VObject [] <> VNumber 5
  /\ _normalizeRunParams VNull rulesOff sampleWorld
     = (Throw (VError "TypeError"
                 "Cannot read properties of null (reading 'include')"),
        sampleWorld).
Proof.
  split; [reflexivity|]. split; [reflexivity|].
  split; [discriminate | reflexivity].
Qed.

(** C3, as amended.  When the [typeof] of the options resolved by
    [_normalizeRunParams] is not "object" ([undefined] among them), the
    options returned are the ones registered in the run-options
    registry, or [{}] when none are registered; options whose [typeof]
    is "object", which are the objects and [null], are returned
    unchanged. *)
Theorem normalize_default_options elementContext runOptions w context options :
  resolveRunParams elementContext runOptions w
  = (Normal (context, options), w) ->
  _normalizeRunParams elementContext runOptions w
  = (Normal (context,
             if String.eqb (typeof options) "object" then options
             else match runOptionsRegistry w with
                  | Some registered => VObject registered
                  | None => VObject []
                  end), w).
Proof.
  intros Resolved.
  rewrite normalizeRunParams_unfold, Resolved, defaultRunOptions_unfold.
  reflexivity.
Qed.

Lemma normalize_default_options_witness :
  resolveRunParams includeFoo VUndefined registeredWorld
  = (Normal (includeFoo, VUndefined), registeredWorld)
  /\ _normalizeRunParams includeFoo VUndefined registeredWorld
     = (Normal (includeFoo, VObject [("runOnly", VArray [VString "wcag2a"])]),
        registeredWorld)
  /\ _normalizeRunParams VUndefined VUndefined sampleWorld
     = (Normal (VString "#ember-testing-container", VObject []), sampleWorld)
  /\ _normalizeRunParams (VString "main") rulesOff registeredWorld
     = (Normal (VString "main", rulesOff), registeredWorld).
Proof.
  split; [reflexivity|]. split.
  - exact (normalize_default_options includeFoo VUndefined registeredWorld
             includeFoo VUndefined eq_refl).
  - split.
    + exact (normalize_default_options VUndefined VUndefined sampleWorld
               (VString "#ember-testing-container") VUndefined eq_refl).
    + exact (normalize_default_options (VString "main") rulesOff
               registeredWorld (VString "main") rulesOff eq_refl).
Defined.

(** C3, as stated, fails on [null] options: [null] is not an object,
    yet it is returned as it is, not replaced by the registered
    options. *)
Lemma normalize_keeps_null_options :
  isObject VNull = false
  /\ resolveRunParams (VString "main") VNull registeredWorld
     = (Normal (VString "main", VNull), registeredWorld)
  /\ _normalizeRunParams (VString "main") VNull registeredWorld
     = (Normal (VString "main", VNull), registeredWorld)
  /\ runOptionsRegistry registeredWorld
     = Some [("runOnly", VArray [VString "wcag2a"])]
  /\ VNull <> VObject [("runOnly", VArray [VString "wcag2a"])].
Proof.
  split; [reflexivity|]. split; [reflexivity|]. split; [reflexivity|].
  split; [reflexivity | discriminate].
Qed.

(** C8, as amended.  On every first argument other than [null] and every
    second argument ([null], [undefined] and primitives among them) the
    classification and the normaliser return, without throwing and
    leaving the world untouched; the pair returned depends on the host
    only through [self.Node], [self.NodeList] and the registry. *)
Theorem normalizer_total elementContext runOptions w :
  elementContext <> VNull ->
  (exists isContext, _isContext elementContext w = (Normal isContext, w))
  /\ (exists context options,
        _normalizeRunParams elementContext runOptions w
        = (Normal (context, options), w))
  /\ forall w2,
       selfNode w2 = selfNode w -> selfNodeList w2 = selfNodeList w ->
       runOptionsRegistry w2 = runOptionsRegistry w ->
       fst (_normalizeRunParams elementContext runOptions w2)
       = fst (_normalizeRunParams elementContext runOptions w).
Proof.
  intros NotNull. split; [|split].
  - rewrite isContext_spec by assumption. eexists; reflexivity.
  - now apply normalizeRunParams_returns.
  - intros w2. apply normalizeRunParams_same_host.
Qed.

Lemma normalizer_total_witness :
  VNumber 7 <> VNull
  /\ (exists isContext,
        _isContext (VNumber 7) sampleWorld = (Normal isContext, sampleWorld))
  /\ (exists context options,
        _normalizeRunParams (VNumber 7) VNull sampleWorld
        = (Normal (context, options), sampleWorld)).
Proof.
  split; [discriminate|].
  destruct (normalizer_total (VNumber 7) VNull sampleWorld
              ltac:(discriminate)) as (Classified & Returned & _).
  split; assumption.
Defined.

(** C8, as stated, fails on [null] as the first argument: the normaliser
    throws a TypeError and returns no pair. *)
Lemma normalizer_null_throws :
  _normalizeRunParams VNull VUndefined sampleWorld
  = (Throw (VError "TypeError"
              "Cannot read properties of null (reading 'include')"),
     sampleWorld)
  /\ ~ (exists context options w',
          _normalizeRunParams VNull VUndefined sampleWorld
          = (Normal (context, options), w')).
Proof.
  split; [reflexivity|].
  intros (context & options & w' & Returned). discriminate Returned.
Qed.

(** C10.  Normalising is idempotent: a pair that [_normalizeRunParams]
    returns is returned again when the normaliser is applied to it, the
    registry being the same. *)
Theorem normalize_idempotent elementContext runOptions w context options w' :
  _normalizeRunParams elementContext runOptions w
  = (Normal (context, options), w') ->
  _normalizeRunParams context options w' = (Normal (context, options), w').
Proof.
  intros Returned.
  apply normalizeRunParams_shape in Returned
    as (-> & Shape & IsObject & _).
  rewrite normalizeRunParams_unfold, resolveRunParams_unfold, Shape; cbn.
  rewrite defaultRunOptions_unfold, IsObject. reflexivity.
Qed.

Lemma normalize_idempotent_witness :
  _normalizeRunParams rulesOff (VNumber 3) registeredWorld
  = (Normal (VString "#ember-testing-container", rulesOff), registeredWorld)
  /\ _normalizeRunParams (VString "#ember-testing-container") rulesOff
       registeredWorld
     = (Normal (VString "#ember-testing-container", rulesOff),
        registeredWorld).
Proof.
  split; [reflexivity|].
  exact (normalize_idempotent rulesOff (VNumber 3) registeredWorld
           (VString "#ember-testing-container") rulesOff registeredWorld
           eq_refl).
Defined.

(** ** Claims about the result translator *)

Section Translator.

Variable formatViolation : Result -> list string -> string.

(** What the translator throws, and that it touches nothing. *)
Lemma processAxeResults_unfold results w :
  processAxeResults formatViolation results w =
  match violations results with
  | [] => (Normal tt, w)
  | _ :: _ =>
      (Throw (VError "Error"
         ("The page should have no accessibility violations. Violations:"
          ++ newline
          ++ String.concat newline
               (map (fun violation =>
                       formatViolation violation
                         (map html (nodes violation)))
                    (violations results))
          ++ newline
          ++ "To rerun this specific failure, use the following query params: &"
          ++ currentTestId w ++ "&enableA11yAudit=true")), w)
  end.
Proof.
  unfold processAxeResults.
  destruct (violations results); reflexivity.
Qed.

(** C4.  The translator throws if and only if the result has at least
    one violation: on an empty list of violations it returns, with no
    value; on one or more it throws; either way the world is left as it
    was. *)
Theorem processAxeResults_throws_iff results w :
  (fst (processAxeResults formatViolation results w) = Normal tt
   <-> violations results = [])
  /\ ((exists error,
         fst (processAxeResults formatViolation results w) = Throw error)
      <-> 1 <= length (violations results))
  /\ snd (processAxeResults formatViolation results w) = w.
Proof.
  rewrite processAxeResults_unfold.
  destruct (violations results) as [|first rest]; cbn.
  - split; [tauto|]. split; [|reflexivity].
    split; [intros [error Thrown]; discriminate Thrown | lia].
  - split; [split; discriminate|]. split; [|reflexivity].
    split; [lia | intros _; eexists; reflexivity].
Qed.

Lemma embeds_middle before needle after :
  embeds needle (before ++ needle ++ after).
Proof. exists before, after. reflexivity. Qed.

Lemma string_app_assoc (a b c : string) :
  ((a ++ b) ++ c)%string = (a ++ b ++ c)%string.
Proof. induction a as [|ch a IH]; cbn; [reflexivity | now rewrite IH]. Qed.

Lemma string_app_empty (a : string) : (a ++ "")%string = a.
Proof. induction a as [|ch a IH]; cbn; [reflexivity | now rewrite IH]. Qed.

(** C5.  For a result with N >= 1 violations, the translator throws an
    [Error] whose message is the header sentence, then the N strings
    obtained by formatting each violation with the [html] of its nodes,
    joined by newlines, then the footer, which holds the identifier of
    the current test and the text [enableA11yAudit=true]. *)
Theorem processAxeResults_message results w :
  1 <= length (violations results) ->
  let entries :=
    map (fun violation =>
           formatViolation violation (map html (nodes violation)))
        (violations results) in
  let header :=
    "The page should have no accessibility violations. Violations:" in
  let footer :=
    ("To rerun this specific failure, use the following query params: &"
     ++ currentTestId w ++ "&enableA11yAudit=true")%string in
  length entries = length (violations results)
  /\ processAxeResults formatViolation results w
     = (Throw (VError "Error"
                 (header ++ newline ++ String.concat newline entries
                  ++ newline ++ footer)), w)
  /\ embeds (currentTestId w) footer
  /\ embeds "enableA11yAudit=true" footer.
Proof.
  intros AtLeastOne entries header footer.
  split; [apply length_map|]. split.
  - rewrite processAxeResults_unfold.
    destruct (violations results) as [|first rest] eqn:Found;
      [cbn in AtLeastOne; lia|].
    reflexivity.
  - split.
    + apply embeds_middle.
    + exists ("To rerun this specific failure, use the following query params: &"
              ++ currentTestId w ++ "&")%string, ""%string.
      unfold footer.
      rewrite string_app_empty, !string_app_assoc. reflexivity.
Qed.

End Translator.

Lemma processAxeResults_message_witness :
  1 <= length (violations (mkAxeResults [imageAlt; label]))
  /\ processAxeResults sampleFormat (mkAxeResults [imageAlt; label])
       sampleWorld
     = (Throw (VError "Error"
          ("The page should have no accessibility violations. Violations:"
           ++ newline
           ++ "image-alt: <img src=logo.png>, <img src=hero.png>"
           ++ newline ++ "label: <input type=text>" ++ newline
           ++ "To rerun this specific failure, use the following query params: &a1b2c3d4&enableA11yAudit=true")),
        sampleWorld).
Proof.
  split; [cbn; lia|].
  exact (proj1 (proj2 (processAxeResults_message sampleFormat
                         (mkAxeResults [imageAlt; label]) sampleWorld
                         ltac:(cbn; lia)))).
Defined.

(** ** Claims about the entry point *)

Section EntryPoint.

Variable engine : World -> value -> value -> CallbackArgs.
Variable formatViolation : Result -> list string -> string.

Lemma normalizeRunParams_logged elementContext runOptions ev w :
  _normalizeRunParams elementContext runOptions (logEvent ev w)
  = (fst (_normalizeRunParams elementContext runOptions w), logEvent ev w).
Proof.
  rewrite <- (normalizeRunParams_same_host elementContext runOptions
                w (logEvent ev w)) by reflexivity.
  rewrite <- (normalizeRunParams_world elementContext runOptions
                (logEvent ev w)) at 3.
  now destruct (_normalizeRunParams elementContext runOptions
                  (logEvent ev w)).
Qed.

(** One audit, start to finish. *)
Lemma auditWith_unfold translate contextSelector axeOptions w :
  auditWith engine translate contextSelector axeOptions w =
  match fst (_normalizeRunParams
               (contextSelectorOrDefault contextSelector) axeOptions w) with
  | Throw e => (Throw e, logEvent (EvMark "a11y_audit_start") w)
  | Normal normalized =>
      let answer :=
        engine (worldAtRun w) (fst normalized) (snd normalized) in
      let called :=
        logEvent (EvRun (fst normalized) (snd normalized)) (worldAtRun w) in
      if ToBoolean (cbError answer) then
        (Normal (Rejected (cbError answer)), worldAfterCleanup called)
      else
        match translate (cbResult answer) called with
        | (Normal _, translated) =>
            (Normal (Fulfilled tt), worldAfterCleanup translated)
        | (Throw e, translated) =>
            (Normal (Rejected e), worldAfterCleanup translated)
        end
  end.
Proof.
  unfold auditWith, contextSelectorOrDefault, bind at 1, mark, modifyWorld.
  unfold bind at 1. rewrite normalizeRunParams_logged.
  destruct (fst (_normalizeRunParams
                   (if is_undefined contextSelector then defaultSelector
                    else contextSelector) axeOptions w))
    as [normalized|e]; [|reflexivity].
  unfold bind, classList_add, classList_remove, markEndAndMeasure,
    runPromise, run, modifyWorld, getWorld, ret, finally_, then_, bind.
  cbn.
  fold (worldAtRun w).
  destruct (ToBoolean (cbError (engine (worldAtRun w) (fst normalized)
                                  (snd normalized)))); cbn.
  - reflexivity.
  - destruct (translate _ _) as [[[]|e] translated]; reflexivity.
Qed.

Lemma processAxeResults_world results w :
  snd (processAxeResults formatViolation results w) = w.
Proof.
  rewrite processAxeResults_unfold.
  destruct (violations results); reflexivity.
Qed.

Lemma a11yAudit_unfold contextSelector axeOptions w :
  a11yAudit engine formatViolation contextSelector axeOptions w =
  match fst (_normalizeRunParams
               (contextSelectorOrDefault contextSelector) axeOptions w) with
  | Throw e => (Throw e, logEvent (EvMark "a11y_audit_start") w)
  | Normal normalized =>
      let answer :=
        engine (worldAtRun w) (fst normalized) (snd normalized) in
      let called :=
        logEvent (EvRun (fst normalized) (snd normalized)) (worldAtRun w) in
      (Normal
         (if ToBoolean (cbError answer) then Rejected (cbError answer)
          else
            match fst (processAxeResults formatViolation
                         (cbResult answer) called) with
            | Normal _ => Fulfilled tt
            | Throw e => Rejected e
            end),
       worldAfterCleanup called)
  end.
Proof.
  unfold a11yAudit. rewrite auditWith_unfold.
  destruct (fst (_normalizeRunParams _ axeOptions w))
    as [normalized|e]; [|reflexivity].
  cbv zeta.
  destruct (ToBoolean _); [reflexivity|].
  match goal with
  | |- context [processAxeResults formatViolation ?r ?v] =>
      pose proof (processAxeResults_world r v) as Same;
      destruct (processAxeResults formatViolation r v) as [[[]|e] v']
  end; cbn in Same |- *; now subst.
Qed.

(** The events of one completed audit. *)
Lemma audit_trace context options w :
  trace (worldAfterCleanup (logEvent (EvRun context options) (worldAtRun w)))
  = trace w
    ++ [EvMark "a11y_audit_start"; EvClassAdd "axe-running";
        EvRun context options; EvClassRemove "axe-running";
        EvMark "a11y_audit_end";
        EvMeasure "a11y_audit" "a11y_audit_start" "a11y_audit_end"].
Proof. cbn. now rewrite <- !app_assoc. Qed.

(** C6.  When the engine's callback reports an error (a truthy first
    argument), the promise returned by [a11yAudit] is rejected with that
    very value, and the callback given to [.then] plays no part: any
    other translator in its place gives the same promise and the same
    world. *)
Theorem engine_error_rejects contextSelector axeOptions w context options :
  fst (_normalizeRunParams
         (contextSelectorOrDefault contextSelector) axeOptions w)
  = Normal (context, options) ->
  ToBoolean (cbError (engine (worldAtRun w) context options)) = true ->
  fst (a11yAudit engine formatViolation contextSelector axeOptions w)
  = Normal (Rejected (cbError (engine (worldAtRun w) context options)))
  /\ forall translate,
       auditWith engine translate contextSelector axeOptions w
       = a11yAudit engine formatViolation contextSelector axeOptions w.
Proof.
  intros Normalized Reported.
  assert (forall translate,
            auditWith engine translate contextSelector axeOptions w
            = (Normal (Rejected
                         (cbError (engine (worldAtRun w) context options))),
               worldAfterCleanup
                 (logEvent (EvRun context options) (worldAtRun w))))
    as Any.
  { intros translate.
    rewrite auditWith_unfold, Normalized; cbn.
    now rewrite Reported. }
  unfold a11yAudit. split.
  - now rewrite Any.
  - intros translate. now rewrite !Any.
Qed.

(** C9, as amended.  When [a11yAudit] calls the engine, the context is
    context-shaped and the options are never [undefined]: their type is
    "object".  They are a plain mapping unless they are an argument of
    the caller handed on as it came: [null] or another object that is
    not a plain mapping reaches the engine unchanged. *)
Theorem engine_receives_object contextSelector axeOptions w settled w' :
  a11yAudit engine formatViolation contextSelector axeOptions w
  = (Normal settled, w') ->
  exists context options,
    engineCalls (trace w') = engineCalls (trace w) ++ [(context, options)]
    /\ fst (_isContext context (worldAtRun w)) = Normal true
    /\ typeof options = "object"
    /\ is_undefined options = false
    /\ (isPlainMapping options = true
        \/ options = contextSelector \/ options = axeOptions).
Proof.
  rewrite a11yAudit_unfold.
  destruct (fst (_normalizeRunParams _ axeOptions w))
    as [[context options]|e] eqn:Normalized; [|discriminate].
  cbv zeta. cbn [fst snd]. intros [= _ <-].
  pose proof (normalizeRunParams_world
                (contextSelectorOrDefault contextSelector) axeOptions w)
    as Same.
  destruct (_normalizeRunParams
              (contextSelectorOrDefault contextSelector) axeOptions w)
    as [completion w1] eqn:Returned.
  cbn in Normalized, Same. subst completion w1.
  apply normalizeRunParams_shape in Returned
    as (_ & Shape & IsObject & Origin).
  exists context, options.
  split; [rewrite audit_trace, engineCalls_app; reflexivity|].
  split; [now rewrite (isContext_same_host context w (worldAtRun w))|].
  split; [assumption|].
  split; [destruct options; try reflexivity; discriminate IsObject|].
  destruct Origin as [First | [Second | Mapping]]; [|now auto|now auto].
  unfold contextSelectorOrDefault in First.
  destruct (is_undefined contextSelector); [|now auto].
  subst options. discriminate IsObject.
Qed.

End EntryPoint.

(** C7.  An audit that returns a promise marks the start, adds
    [axe-running] to the body and only then calls the engine: the engine
    runs in a world whose body carries the class, so that what an engine
    would answer without the class on the body has no bearing on the
    audit.  Once the promise has settled, fulfilled or rejected by the
    engine or by the translator, the class is off the body and the end
    marker and the measurement are recorded.  The only call that returns
    no promise is one with [null] as its first argument: it throws while
    normalising, before the class is added and without calling the
    engine. *)
Theorem audit_cleanup
  (engine : World -> value -> value -> CallbackArgs)
  (formatViolation : Result -> list string -> string)
  contextSelector axeOptions w :
  (forall engine',
     (forall atRun context options,
        hasToken "axe-running" (bodyClassList atRun) = true ->
        engine' atRun context options = engine atRun context options) ->
     a11yAudit engine' formatViolation contextSelector axeOptions w
     = a11yAudit engine formatViolation contextSelector axeOptions w)
  /\ match a11yAudit engine formatViolation contextSelector axeOptions w
     with
     | (Normal settled, w') =>
         exists context options,
           trace w'
           = trace w
             ++ [EvMark "a11y_audit_start"; EvClassAdd "axe-running";
                 EvRun context options; EvClassRemove "axe-running";
                 EvMark "a11y_audit_end";
                 EvMeasure "a11y_audit" "a11y_audit_start"
                   "a11y_audit_end"]
           /\ tokenHeldAtRuns "axe-running" (bodyClassList w)
                [EvMark "a11y_audit_start"; EvClassAdd "axe-running";
                 EvRun context options; EvClassRemove "axe-running";
                 EvMark "a11y_audit_end";
                 EvMeasure "a11y_audit" "a11y_audit_start"
                   "a11y_audit_end"]
              = true
           /\ hasToken "axe-running" (bodyClassList (worldAtRun w)) = true
           /\ settled
              = (let answer := engine (worldAtRun w) context options in
                 if ToBoolean (cbError answer)
                 then Rejected (cbError answer)
                 else match fst (processAxeResults formatViolation
                                   (cbResult answer) w) with
                      | Normal _ => Fulfilled tt
                      | Throw e => Rejected e
                      end)
           /\ hasToken "axe-running" (bodyClassList w') = false
     | (Throw e, w') =>
         contextSelector = VNull
         /\ trace w' = trace w ++ [EvMark "a11y_audit_start"]
         /\ bodyClassList w' = bodyClassList w
     end.
Proof.
  split.
  - intros engine' Agree. rewrite !a11yAudit_unfold.
    destruct (fst (_normalizeRunParams _ axeOptions w))
      as [normalized|e]; [|reflexivity].
    cbv zeta. rewrite Agree by apply hasToken_addToken. reflexivity.
  - rewrite a11yAudit_unfold.
    destruct (fst (_normalizeRunParams _ axeOptions w))
      as [[context options]|e] eqn:Normalized.
    + cbv zeta. exists context, options. cbn [fst snd].
      split; [apply audit_trace|].
      split; [cbn [tokenHeldAtRuns]; now rewrite hasToken_addToken|].
      split; [apply hasToken_addToken|].
      split; [|apply hasToken_removeToken].
      rewrite !processAxeResults_unfold.
      destruct (ToBoolean _); [reflexivity|].
      destruct (violations _); reflexivity.
    + split; [|split; reflexivity].
      destruct contextSelector; try reflexivity;
        match type of Normalized with
        | fst (_normalizeRunParams ?a _ _) = _ =>
            destruct (normalizeRunParams_returns a axeOptions w)
              as (context & options & Returned);
            [cbn; discriminate | rewrite Returned in Normalized;
                                 discriminate Normalized]
        end.
Qed.

Lemma audit_cleanup_witness :
  (forall atRun context options,
     hasToken "axe-running" (bodyClassList atRun) = true ->
     strictEngine atRun context options
     = sampleEngine atRun context options)
  /\ hasToken "axe-running" (bodyClassList sampleWorld) = false
  /\ a11yAudit strictEngine sampleFormat (VString "#form") VUndefined
       sampleWorld
     = a11yAudit sampleEngine sampleFormat (VString "#form") VUndefined
         sampleWorld.
Proof.
  assert (forall atRun context options,
            hasToken "axe-running" (bodyClassList atRun) = true ->
            strictEngine atRun context options
            = sampleEngine atRun context options) as Agree.
  { intros atRun context options Held. unfold strictEngine.
    rewrite Held. reflexivity. }
  split; [exact Agree|]. split; [reflexivity|].
  exact (proj1 (audit_cleanup sampleEngine sampleFormat (VString "#form")
                  VUndefined sampleWorld) strictEngine Agree).
Defined.

Lemma engine_error_rejects_witness :
  fst (_normalizeRunParams
         (contextSelectorOrDefault (VString "#missing")) VUndefined
         sampleWorld)
  = Normal (VString "#missing", VObject [])
  /\ ToBoolean (cbError (sampleEngine (worldAtRun sampleWorld)
                           (VString "#missing") (VObject []))) = true
  /\ fst (a11yAudit sampleEngine sampleFormat (VString "#missing")
            VUndefined sampleWorld)
     = Normal (Rejected engineFailure).
Proof.
  split; [reflexivity|]. split; [reflexivity|].
  exact (proj1 (engine_error_rejects sampleEngine sampleFormat
                  (VString "#missing") VUndefined sampleWorld
                  (VString "#missing") (VObject []) eq_refl eq_refl)).
Defined.

Lemma engine_receives_object_witness :
  a11yAudit sampleEngine sampleFormat rulesOff VUndefined sampleWorld
  = (Normal (Fulfilled tt),
     snd (a11yAudit sampleEngine sampleFormat rulesOff VUndefined
            sampleWorld))
  /\ exists context options,
       engineCalls
         (trace (snd (a11yAudit sampleEngine sampleFormat rulesOff
                        VUndefined sampleWorld)))
       = engineCalls (trace sampleWorld) ++ [(context, options)]
       /\ typeof options = "object"
       /\ is_undefined options = false.
Proof.
  split; [reflexivity|].
  destruct (engine_receives_object sampleEngine sampleFormat rulesOff
              VUndefined sampleWorld (Fulfilled tt)
              (snd (a11yAudit sampleEngine sampleFormat rulesOff
                      VUndefined sampleWorld)) eq_refl)
    as (context & options & Called & _ & IsObject & NotUndefined & _).
  exists context, options. repeat split; assumption.
Defined.

(** C9, as stated, fails when the caller gives [null] as options: the
    normaliser lets it through, [typeof null] being "object", and the
    engine is called with [null]. *)
Lemma engine_receives_null :
  engineCalls
    (trace (snd (a11yAudit sampleEngine sampleFormat (VString "#main")
                   VNull sampleWorld)))
  = [(VString "#main", VNull)]
  /\ isPlainMapping VNull = false.
Proof. split; reflexivity. Qed.

(** The three ways an audit settles, on the sample engine: every one
    ends with the class off the body and the same six events. *)
Example audit_settles_three_ways :
  let eventsFor context :=
    [EvMark "a11y_audit_start"; EvClassAdd "axe-running";
     EvRun context (VObject []); EvClassRemove "axe-running";
     EvMark "a11y_audit_end";
     EvMeasure "a11y_audit" "a11y_audit_start" "a11y_audit_end"] in
  let audit context :=
    a11yAudit sampleEngine sampleFormat context VUndefined sampleWorld in
  fst (audit VUndefined) = Normal (Fulfilled tt)
  /\ fst (audit (VString "#missing")) = Normal (Rejected engineFailure)
  /\ (exists message,
        fst (audit (VString "#form"))
        = Normal (Rejected (VError "Error" message)))
  /\ trace (snd (audit VUndefined))
     = eventsFor (VString "#ember-testing-container")
  /\ trace (snd (audit (VString "#missing")))
     = eventsFor (VString "#missing")
  /\ trace (snd (audit (VString "#form"))) = eventsFor (VString "#form")
  /\ bodyClassList (snd (audit (VString "#form"))) = ["ember-application"].
Proof.
  cbv zeta. repeat split; try reflexivity.
  eexists. reflexivity.
Qed.

(** * Further properties of the audit helper *)

(** ** The normaliser beyond the claims *)

Lemma removeToken_addToken token classes :
  removeToken token (addToken token classes) = removeToken token classes.
Proof.
  unfold addToken. destruct (hasToken token classes); [reflexivity|].
  unfold removeToken. rewrite filter_app. cbn.
  rewrite String.eqb_refl. cbn. apply app_nil_r.
Qed.

(** X1.  When the first argument is classified as options, the second
    argument is dropped: [_normalizeRunParams] returns the same pair
    whatever the second argument is, and so [a11yAudit] runs the same
    audit. *)
Theorem options_first_drops_second
  (engine : World -> value -> value -> CallbackArgs)
  (formatViolation : Result -> list string -> string)
  elementContext runOptions runOptions' w :
  fst (_isContext elementContext w) = Normal false ->
  _normalizeRunParams elementContext runOptions w
  = _normalizeRunParams elementContext runOptions' w
  /\ (is_undefined elementContext = false ->
      a11yAudit engine formatViolation elementContext runOptions w
      = a11yAudit engine formatViolation elementContext runOptions' w).
Proof.
  intros Shape.
  assert (_normalizeRunParams elementContext runOptions w
          = _normalizeRunParams elementContext runOptions' w) as Same.
  { rewrite !normalizeRunParams_unfold, !resolveRunParams_unfold, Shape.
    reflexivity. }
  split; [exact Same|].
  intros Given. rewrite !a11yAudit_unfold.
  unfold contextSelectorOrDefault. rewrite Given, Same. reflexivity.
Qed.

Lemma options_first_drops_second_witness :
  fst (_isContext rulesOff sampleWorld) = Normal false
  /\ is_undefined rulesOff = false
  /\ _normalizeRunParams rulesOff includeFoo sampleWorld
     = _normalizeRunParams rulesOff VUndefined sampleWorld
  /\ a11yAudit sampleEngine sampleFormat rulesOff includeFoo sampleWorld
     = a11yAudit sampleEngine sampleFormat rulesOff VUndefined sampleWorld.
Proof.
  split; [reflexivity|]. split; [reflexivity|].
  destruct (options_first_drops_second sampleEngine sampleFormat rulesOff
              includeFoo VUndefined sampleWorld eq_refl)
    as [Normalised Audited].
  split; [exact Normalised | exact (Audited eq_refl)].
Defined.

(** X2.  Options the caller passes are not merged with the registered
    ones: when the resolved options are of type "object", the pair
    returned is the resolved one whatever the registry holds. *)
Theorem explicit_options_override_registry
  elementContext runOptions w w2 context options :
  selfNode w2 = selfNode w -> selfNodeList w2 = selfNodeList w ->
  fst (resolveRunParams elementContext runOptions w)
  = Normal (context, options) ->
  typeof options = "object" ->
  fst (_normalizeRunParams elementContext runOptions w2)
  = Normal (context, options).
Proof.
  intros SameNode SameList Resolved IsObject.
  rewrite normalizeRunParams_unfold, resolveRunParams_unfold.
  rewrite resolveRunParams_unfold in Resolved.
  rewrite (isContext_same_host elementContext w w2) by assumption.
  destruct (fst (_isContext elementContext w)) as [[|]|e];
    cbn in Resolved |- *; try discriminate Resolved;
    injection Resolved as <- <-;
    rewrite defaultRunOptions_unfold; cbn; now rewrite IsObject.
Qed.

Lemma explicit_options_override_registry_witness :
  fst (resolveRunParams (VString "main") rulesOff sampleWorld)
  = Normal (VString "main", rulesOff)
  /\ typeof rulesOff = "object"
  /\ runOptionsRegistry registeredWorld <> runOptionsRegistry sampleWorld
  /\ fst (_normalizeRunParams (VString "main") rulesOff registeredWorld)
     = Normal (VString "main", rulesOff).
Proof.
  split; [reflexivity|]. split; [reflexivity|]. split; [discriminate|].
  exact (explicit_options_override_registry (VString "main") rulesOff
           sampleWorld registeredWorld (VString "main") rulesOff
           eq_refl eq_refl eq_refl eq_refl).
Defined.

(** X3.  Where the global [self] is bound, the shape test does not need
    a DOM: on a value that is neither a node nor a node-list,
    [_isContext] answers, or throws, the same whether or not [self.Node]
    and [self.NodeList] are defined, in a worker as in a window. *)
Theorem isContext_without_dom potential w w2 :
  instanceof_Node potential = false ->
  instanceof_NodeList potential = false ->
  fst (_isContext potential w2) = fst (_isContext potential w).
Proof.
  intros NoNode NoNodeList.
  destruct potential; try discriminate;
    try (rewrite !isContext_spec by congruence; cbn;
         now rewrite ?andb_false_r).
  now rewrite !isContext_null.
Qed.

Lemma isContext_without_dom_witness :
  instanceof_Node includeFoo = false
  /\ instanceof_NodeList includeFoo = false
  /\ selfNode workerWorld = false
  /\ fst (_isContext includeFoo workerWorld)
     = fst (_isContext includeFoo sampleWorld)
  /\ fst (_isContext includeFoo workerWorld) = Normal true.
Proof.
  split; [reflexivity|]. split; [reflexivity|]. split; [reflexivity|].
  split; [|reflexivity].
  exact (isContext_without_dom includeFoo sampleWorld workerWorld
           eq_refl eq_refl).
Defined.

(** ** The entry point beyond the claims *)

Section AuditOutcome.

Variable engine : World -> value -> value -> CallbackArgs.
Variable formatViolation : Result -> list string -> string.

(** X4.  How an audit settles.  With [(context, options)] the normalised
    arguments and [answer] what the engine reports for them: a truthy
    error rejects with that error; otherwise the translator decides, so
    that the promise is fulfilled exactly when the error is falsy and
    the result has no violations, and a falsy error with violations
    rejects with the error the translator throws. *)
Theorem audit_outcome contextSelector axeOptions w context options :
  fst (_normalizeRunParams
         (contextSelectorOrDefault contextSelector) axeOptions w)
  = Normal (context, options) ->
  let answer := engine (worldAtRun w) context options in
  let settled :=
    fst (a11yAudit engine formatViolation contextSelector axeOptions w) in
  (settled = Normal (Fulfilled tt)
   <-> ToBoolean (cbError answer) = false
       /\ violations (cbResult answer) = [])
  /\ (ToBoolean (cbError answer) = false ->
      1 <= length (violations (cbResult answer)) ->
      exists error,
        fst (processAxeResults formatViolation (cbResult answer) w)
        = Throw error
        /\ settled = Normal (Rejected error)).
Proof.
  intros Normalized answer settled. subst settled.
  rewrite a11yAudit_unfold, Normalized. cbv zeta. cbn [fst snd].
  fold answer. rewrite !processAxeResults_unfold.
  destruct (ToBoolean (cbError answer)) eqn:Reported;
    destruct (violations (cbResult answer)) as [|first rest] eqn:Found;
    cbn.
  - split; [split; [discriminate | intros [Falsy _]; discriminate Falsy]|].
    intros Falsy; discriminate Falsy.
  - split; [split; [discriminate | intros [Falsy _]; discriminate Falsy]|].
    intros Falsy; discriminate Falsy.
  - split; [split; [now auto | reflexivity]|]. intros _ Some; lia.
  - split; [split; [discriminate | intros [_ None]; discriminate None]|].
    intros _ _. eexists. split; reflexivity.
Qed.

(** X5.  An audit that gets past normalisation calls the engine exactly
    once, with exactly the pair [_normalizeRunParams] returns for its
    arguments. *)
Theorem audit_calls_engine_once contextSelector axeOptions w context options :
  fst (_normalizeRunParams
         (contextSelectorOrDefault contextSelector) axeOptions w)
  = Normal (context, options) ->
  engineCalls
    (trace (snd (a11yAudit engine formatViolation contextSelector
                   axeOptions w)))
  = engineCalls (trace w) ++ [(context, options)].
Proof.
  intros Normalized.
  rewrite a11yAudit_unfold, Normalized. cbv zeta. cbn [fst snd].
  rewrite audit_trace, engineCalls_app. reflexivity.
Qed.

(** X6.  Of the body's classes an audit touches [axe-running] alone:
    once the promise has settled the class list is the one the audit
    found, in the same order, less [axe-running], also when that class
    was already there when the audit began. *)
Theorem audit_body_classes contextSelector axeOptions w settled w' :
  a11yAudit engine formatViolation contextSelector axeOptions w
  = (Normal settled, w') ->
  bodyClassList w' = removeToken "axe-running" (bodyClassList w).
Proof.
  rewrite a11yAudit_unfold.
  destruct (fst (_normalizeRunParams _ axeOptions w))
    as [normalized|e]; [|discriminate].
  cbv zeta. intros [= _ <-]. cbn [worldAfterCleanup worldAtRun logEvent
    withBodyClassList bodyClassList].
  apply removeToken_addToken.
Qed.

(** X7.  The default of the first parameter keeps the caller's options:
    [a11yAudit(undefined, options)] audits [#ember-testing-container]
    with these very options, whereas [_normalizeRunParams(undefined,
    options)] takes [undefined] for the options and falls back to the
    registry. *)
Theorem omitted_context_keeps_options axeOptions w :
  typeof axeOptions = "object" ->
  engineCalls
    (trace (snd (a11yAudit engine formatViolation VUndefined axeOptions w)))
  = engineCalls (trace w)
    ++ [(VString "#ember-testing-container", axeOptions)]
  /\ fst (_normalizeRunParams VUndefined axeOptions w)
     = Normal (VString "#ember-testing-container",
               match runOptionsRegistry w with
               | Some registered => VObject registered
               | None => VObject []
               end).
Proof.
  intros IsObject. split.
  - rewrite a11yAudit_unfold. cbn [contextSelectorOrDefault is_undefined].
    rewrite normalizeRunParams_unfold, resolveRunParams_unfold.
    unfold defaultSelector. rewrite isContext_string. cbn [fst snd].
    rewrite defaultRunOptions_unfold, IsObject. cbv zeta. cbn [fst snd].
    rewrite audit_trace, engineCalls_app. reflexivity.
  - rewrite normalizeRunParams_unfold, resolveRunParams_unfold.
    rewrite isContext_spec by discriminate. cbn [fst snd].
    cbn [isString Array_isArray instanceof_Node instanceof_NodeList
         hasDefinedKey andb orb].
    rewrite !andb_false_r. cbn [orb fst snd].
    rewrite defaultRunOptions_unfold. reflexivity.
Qed.

End AuditOutcome.

Lemma audit_outcome_witness :
  fst (_normalizeRunParams
         (contextSelectorOrDefault (VString "#form")) VUndefined sampleWorld)
  = Normal (VString "#form", VObject [])
  /\ ToBoolean (cbError (sampleEngine (worldAtRun sampleWorld)
                           (VString "#form") (VObject []))) = false
  /\ 1 <= length (violations
                    (cbResult (sampleEngine (worldAtRun sampleWorld)
                                 (VString "#form") (VObject []))))
  /\ exists error,
       fst (processAxeResults sampleFormat
              (cbResult (sampleEngine (worldAtRun sampleWorld)
                           (VString "#form") (VObject []))) sampleWorld)
       = Throw error
       /\ fst (a11yAudit sampleEngine sampleFormat (VString "#form")
                 VUndefined sampleWorld)
          = Normal (Rejected error).
Proof.
  split; [reflexivity|]. split; [reflexivity|]. split; [cbn; lia|].
  exact (proj2 (audit_outcome sampleEngine sampleFormat (VString "#form")
                  VUndefined sampleWorld (VString "#form") (VObject [])
                  eq_refl) eq_refl ltac:(cbn; lia)).
Defined.

Lemma audit_calls_engine_once_witness :
  fst (_normalizeRunParams
         (contextSelectorOrDefault includeFoo) VUndefined registeredWorld)
  = Normal (includeFoo, VObject [("runOnly", VArray [VString "wcag2a"])])
  /\ engineCalls
       (trace (snd (a11yAudit sampleEngine sampleFormat includeFoo
                      VUndefined registeredWorld)))
     = engineCalls (trace registeredWorld)
       ++ [(includeFoo, VObject [("runOnly", VArray [VString "wcag2a"])])].
Proof.
  split; [reflexivity|].
  exact (audit_calls_engine_once sampleEngine sampleFormat includeFoo
           VUndefined registeredWorld includeFoo
           (VObject [("runOnly", VArray [VString "wcag2a"])]) eq_refl).
Defined.

Lemma audit_body_classes_witness :
  a11yAudit sampleEngine sampleFormat (VString "#form") VUndefined
    overlappingWorld
  = (fst (a11yAudit sampleEngine sampleFormat (VString "#form") VUndefined
            overlappingWorld),
     snd (a11yAudit sampleEngine sampleFormat (VString "#form") VUndefined
            overlappingWorld))
  /\ hasToken "axe-running" (bodyClassList overlappingWorld) = true
  /\ bodyClassList
       (snd (a11yAudit sampleEngine sampleFormat (VString "#form")
               VUndefined overlappingWorld))
     = ["ember-application"].
Proof.
  split; [reflexivity|]. split; [reflexivity|].
  exact (audit_body_classes sampleEngine sampleFormat (VString "#form")
           VUndefined overlappingWorld _ _ eq_refl).
Defined.

Lemma omitted_context_keeps_options_witness :
  typeof rulesOff = "object"
  /\ engineCalls
       (trace (snd (a11yAudit sampleEngine sampleFormat VUndefined rulesOff
                      registeredWorld)))
     = [(VString "#ember-testing-container", rulesOff)]
  /\ fst (_normalizeRunParams VUndefined rulesOff registeredWorld)
     = Normal (VString "#ember-testing-container",
               VObject [("runOnly", VArray [VString "wcag2a"])]).
Proof.
  split; [reflexivity|].
  exact (omitted_context_keeps_options sampleEngine sampleFormat rulesOff
           registeredWorld eq_refl).
Defined.
